(** * Crush library facade ([lib/lib.go]): progress overlay, UI runner, capability detection

    A shallow embedding of the Go package [lib].  The package is glue code:
    every interesting outcome is decided by a collaborator ([db.Connect],
    [app.New], [tea.Program.Run], the process environment).  The embedding
    therefore runs the functions of [lib.go] against a [World] that fixes the
    outcome of each collaborator call, and records the calls that [lib.go]
    itself makes, in program order, in a trace. *)

From stdpp Require Import base option list strings gmap.
From Stdlib Require Import Ascii String.

Local Open Scope string_scope.

(** ** Go strings

    Go strings are byte sequences; they are modelled as [string], whose
    characters are bytes. *)
Module strings.

(** One byte of [strings.ToLower]: the bytes ['A'..'Z'] move up by
    ['a' - 'A'], every other byte stays. *)
Definition lower (c : ascii) : ascii :=
  let n := nat_of_ascii c in
  if (65 <=? n)%nat && (n <=? 90)%nat then ascii_of_nat (n + 32) else c.

(** [strings.ToLower].  This is the byte-wise path that Go takes on ASCII
    input.  On input with bytes [>= 0x80] Go maps [unicode.ToLower] over the
    decoded runes instead; that changes only runes outside ASCII, except for
    U+0130 and U+212A which become [i] and [k].  Neither letter occurs in
    the pattern searched for in this package, and no byte of a multi-byte
    encoding is below [0x80], so the result of the search performed by
    [supportsProgressBar] is the same under both readings. *)
Fixpoint ToLower (s : string) : string :=
  match s with
  | EmptyString => EmptyString
  | String c s' => String (lower c) (ToLower s')
  end.

(** [strings.HasPrefix]. *)
Fixpoint HasPrefix (s prefix : string) {struct prefix} : bool :=
  match prefix, s with
  | EmptyString, _ => true
  | String p prefix', String c s' => Ascii.eqb c p && HasPrefix s' prefix'
  | String _ _, EmptyString => false
  end.

(** [strings.Contains s substr]: [substr] occurs at some offset of [s]. *)
Fixpoint Contains (s substr : string) : bool :=
  HasPrefix s substr ||
  match s with
  | EmptyString => false
  | String _ s' => Contains s' substr
  end.

(** The upper-case partner of a lower-case letter. *)
Definition upper_of (p : ascii) : ascii :=
  ascii_of_nat (nat_of_ascii p - 32).

Definition is_lower_letter (p : ascii) : bool :=
  let n := nat_of_ascii p in (97 <=? n)%nat && (n <=? 122)%nat.

(** Lower-case letters only, as in the pattern ["ghostty"]. *)
Fixpoint lower_letters (pat : string) : bool :=
  match pat with
  | EmptyString => true
  | String p pat' => is_lower_letter p && lower_letters pat'
  end.

(** [s] spells [pat] letter by letter, each letter in either case. *)
Fixpoint spells (s pat : string) : Prop :=
  match s, pat with
  | EmptyString, EmptyString => True
  | String c s', String p pat' => (c = p \/ c = upper_of p) /\ spells s' pat'
  | _, _ => False
  end.

(** [s] contains [pat] as a substring, in any case. *)
Definition contains_any_case (s pat : string) : Prop :=
  exists pre mid suf, s = pre ++ mid ++ suf /\ spells mid pat.

End strings.

(** ** Values that cross the facade *)

(** Pointers are compared by identity only. *)
Definition loc := nat.

(** A Go [error] value (non-nil), identified by its message. *)
Inductive error := Err (msg : string).

(** [context.Context]. *)
Inductive context := Ctx (id : nat).

(** [*sql.DB], the connection handle. *)
Definition sql_DB := loc.

(** [*app.App] ([lib.App] is an alias of it). *)
Definition App := loc.

(** The two fields of [config.Options] that [lib.go] reads.  [Progress] is a
    [*bool]: [None] is the nil pointer. *)
Record config_Options := {
  DataDirectory : string;
  Progress : option bool
}.

(** [config.Config] ([lib.Config] is an alias of it). *)
Record Config := { Options : config_Options }.

(** [uv.Environ], the snapshot taken by [os.Environ()]. *)
Abbreviation Environ := (gmap string string).

(** [common.Common] and the UI model built from it. *)
Record Common := { com_App : App }.
Record UIModel := { ui_com : Common }.

Inductive Filter := MouseEventFilter.

Inductive ProgramOption :=
| WithEnvironment (env : Environ)
| WithContext (ctx : context)
| WithFilter (f : Filter).

(** [*tea.Program], as constructed by [tea.NewProgram model opts...]. *)
Record Program := {
  prog_model : UIModel;
  prog_opts : list ProgramOption
}.

Inductive File := Stdout | Stderr.

(** File descriptor of [os.Stderr]. *)
Definition Stderr_Fd : N := 2%N.

(** What a call into a collaborator does: return a value, return a non-nil
    [error], or panic. *)
Inductive outcome (A : Type) :=
| Done (a : A)
| Failed (e : error)
| Panics (v : string).
Arguments Done {A} a.
Arguments Failed {A} e.
Arguments Panics {A} v.

(** ** The world outside [lib.go] *)
Record World := {
  (** [term.IsTerminal(fd)] *)
  is_terminal : N -> bool;
  (** the process environment *)
  environment : Environ;
  (** [db.Connect(ctx, dataDir)] *)
  connect_outcome : context -> string -> outcome sql_DB;
  (** [app.New(ctx, conn, cfg)] *)
  new_outcome : context -> sql_DB -> Config -> outcome App;
  (** [program.Run()]; the returned [tea.Model] is discarded by [lib.go] *)
  run_outcome : Program -> outcome unit;
  (** [ansi.SetIndeterminateProgressBar] and [ansi.ResetProgressBar] *)
  SetIndeterminateProgressBar : string;
  ResetProgressBar : string
}.

(** ** Calls made by [lib.go], in program order

    An event records one call together with what the world answered.
    [EvFprintf f format] is [fmt.Fprintf(f, format)] without operands, which
    writes [format] as it is unless it contains a verb; the event keeps the
    format.  [EvGoSubscribe a p] is the [go] statement that starts
    [a.Subscribe(p)] on its own goroutine; what that goroutine does is not
    part of the trace. *)
Inductive event :=
| EvFprint (f : File) (s : string)
| EvFprintf (f : File) (format : string)
| EvConnect (ctx : context) (dataDir : string) (r : outcome sql_DB)
| EvAppNew (ctx : context) (conn : sql_DB) (cfg : Config) (r : outcome App)
| EvNewProgram (p : Program)
| EvGoSubscribe (a : App) (p : Program)
| EvRun (p : Program) (r : outcome unit)
| EvSlogError (msg key : string) (e : error)
| EvClose (conn : sql_DB)
| EvShutdown (a : App).

(** Backend resources held by application instances. *)
Definition resource := nat.

(** Process state: the trace of calls, and the resources each application
    instance still holds. *)
Record state := {
  trace : list event;
  held : gmap App (list resource)
}.

Definition emit (e : event) (s : state) : state :=
  {| trace := trace s ++ [e]; held := held s |}.

(** ** Function bodies

    A statement either falls through with a value, returns from the enclosing
    function, or panics.  [R] is the result type of the enclosing function. *)
Inductive ctl (R A : Type) :=
| Next (a : A)
| Return (r : R)
| Panic (v : string).
Arguments Next {R A} a.
Arguments Return {R A} r.
Arguments Panic {R A} v.

(** Calls registered by [defer] in the running function. *)
Inductive deferred :=
| DeferFprintf (f : File) (format : string).

Record frame := {
  st : state;
  defers : list deferred   (* most recent first *)
}.

Definition M (R A : Type) := frame -> ctl R A * frame.

#[export] Instance M_ret R : MRet (M R) := fun A a fr => (Next a, fr).
#[export] Instance M_bind R : MBind (M R) := fun A B k m fr =>
  match m fr with
  | (Next a, fr') => k a fr'
  | (Return r, fr') => (Return r, fr')
  | (Panic v, fr') => (Panic v, fr')
  end.

Definition ret_ {R A} (r : R) : M R A := fun fr => (Return r, fr).
Definition panic {R A} (v : string) : M R A := fun fr => (Panic v, fr).

Definition emitM {R} (e : event) : M R unit :=
  fun fr => (Next tt, {| st := emit e (st fr); defers := defers fr |}).

(** [defer d]: push on the frame's stack. *)
Definition defer {R} (d : deferred) : M R unit :=
  fun fr => (Next tt, {| st := st fr; defers := d :: defers fr |}).

(** How a function call ends. *)
Inductive result (R : Type) :=
| Returned (r : R)
| Panicked (v : string).
Arguments Returned {R} r.
Arguments Panicked {R} v.

Definition run_deferred (d : deferred) (s : state) : state :=
  match d with
  | DeferFprintf f format => emit (EvFprintf f format) s
  end.

(** Deferred calls run last-in first-out when the function returns or
    unwinds. *)
Definition run_defers (ds : list deferred) (s : state) : state :=
  foldl (fun s d => run_deferred d s) s ds.

(** Calling a function: fresh frame, body, then the deferred calls. *)
Definition call {R} (body : M R R) (s : state) : result R * state :=
  match body {| st := s; defers := [] |} with
  | (Next r, fr) | (Return r, fr) => (Returned r, run_defers (defers fr) (st fr))
  | (Panic v, fr) => (Panicked v, run_defers (defers fr) (st fr))
  end.

(** A call from inside a body: a panic of the callee propagates. *)
Definition invoke {R A} (callee : M A A) : M R A := fun fr =>
  match call callee (st fr) with
  | (Returned a, s') => (Next a, {| st := s'; defers := defers fr |})
  | (Panicked v, s') => (Panic v, {| st := s'; defers := defers fr |})
  end.

(** ** Collaborators as seen from [lib.go] *)

Definition term_IsTerminal {R} (w : World) (fd : N) : M R bool :=
  mret (is_terminal w fd).

(** [os.Getenv]: the empty string when the variable is unset. *)
Definition os_Getenv {R} (w : World) (key : string) : M R string :=
  mret (default "" (environment w !! key)).

(** [os.LookupEnv]: the value and whether the variable is present. *)
Definition os_LookupEnv {R} (w : World) (key : string) : M R (string * bool) :=
  mret (default "" (environment w !! key), bool_decide (is_Some (environment w !! key))).

Definition os_Environ {R} (w : World) : M R Environ :=
  mret (environment w).

Definition fmt_Fprint {R} (f : File) (s : string) : M R unit :=
  emitM (EvFprint f s).

(** Go pairs [(value, err)]: on failure the value is the nil pointer. *)
Definition nil : loc := 0.

Definition db_Connect {R} (w : World) (ctx : context) (dataDir : string)
  : M R (sql_DB * option error) :=
  let r := connect_outcome w ctx dataDir in
  emitM (EvConnect ctx dataDir r) ;;
  match r with
  | Done conn => mret (conn, None)
  | Failed e => mret (nil, Some e)
  | Panics v => panic v
  end.

Definition app_New {R} (w : World) (ctx : context) (conn : sql_DB) (cfg : Config)
  : M R (App * option error) :=
  let r := new_outcome w ctx conn cfg in
  emitM (EvAppNew ctx conn cfg r) ;;
  match r with
  | Done a => mret (a, None)
  | Failed e => mret (nil, Some e)
  | Panics v => panic v
  end.

Definition common_DefaultCommon (a : App) : Common := {| com_App := a |}.
Definition ui_New (com : Common) : UIModel := {| ui_com := com |}.

Definition tea_NewProgram {R} (model : UIModel) (opts : list ProgramOption)
  : M R Program :=
  let p := {| prog_model := model; prog_opts := opts |} in
  emitM (EvNewProgram p) ;; mret p.

(** [go appInstance.Subscribe(program)]: the statement starts the goroutine
    and falls through at once. *)
Definition go_Subscribe {R} (a : App) (p : Program) : M R unit :=
  emitM (EvGoSubscribe a p).

Definition Program_Run {R} (w : World) (p : Program) : M R (unit * option error) :=
  let r := run_outcome w p in
  emitM (EvRun p r) ;;
  match r with
  | Done m => mret (m, None)
  | Failed e => mret (tt, Some e)
  | Panics v => panic v
  end.

Definition slog_Error {R} (msg key : string) (e : error) : M R unit :=
  emitM (EvSlogError msg key e).

(** [Close] on a [*sql.DB]; part of the handle's interface, [lib.go] has no
    call to it. *)
Definition sql_DB_Close {R} (conn : sql_DB) : M R unit :=
  emitM (EvClose conn).

(** Modelled from the spec: the method [Shutdown] of [*app.App] lives in
    [internal/app],
    which is not part of the source at hand.  The spec describes it as
    "idempotent, releases backend resources, safe to call after or instead
    of a UI run": it returns for every instance in every state, and
    afterwards the instance holds no resource. *)
Definition App_Shutdown {R} (a : App) : M R unit := fun fr =>
  (Next tt,
   {| st := {| trace := trace (st fr) ++ [EvShutdown a];
               held := <[a := []]> (held (st fr)) |};
      defers := defers fr |}).

(** Dereferencing a pointer that may be nil. *)
Definition deref {R A} (p : option A) : M R A :=
  match p with
  | Some a => mret a
  | None => panic "invalid memory address or nil pointer dereference"
  end.

(** ** [lib.go] *)

(** [func supportsProgressBar() bool] *)
Definition supportsProgressBar (w : World) : M bool bool :=
  isTerm ← term_IsTerminal w Stderr_Fd;
  if negb isTerm then ret_ false else
  termProg ← os_Getenv w "TERM_PROGRAM";
  '(_, isWindowsTerminal) ← os_LookupEnv w "WT_SESSION";
  ret_ (isWindowsTerminal || strings.Contains (strings.ToLower termProg) "ghostty").

(** [func IsTerminal(fd uintptr) bool] *)
Definition IsTerminal (w : World) (fd : N) : M bool bool :=
  b ← term_IsTerminal w fd; ret_ b.

(** [func Connect(ctx, dataDir)], returning a [*sql.DB] and an [error] *)
Definition Connect (w : World) (ctx : context) (dataDir : string)
  : M (sql_DB * option error) (sql_DB * option error) :=
  r ← db_Connect w ctx dataDir; ret_ r.

(** [func NewApp(ctx, conn, cfg)], returning a [*App] and an [error] *)
Definition NewApp (w : World) (ctx : context) (conn : sql_DB) (cfg : Config)
  : M (App * option error) (App * option error) :=
  r ← app_New w ctx conn cfg; ret_ r.

(** [func RunTUI(ctx context.Context, appInstance *App) error] *)
Definition RunTUI (w : World) (ctx : context) (appInstance : App)
  : M (option error) (option error) :=
  env ← os_Environ w;
  let com := common_DefaultCommon appInstance in
  let model := ui_New com in
  program ← tea_NewProgram model
    [WithEnvironment env; WithContext ctx; WithFilter MouseEventFilter];
  go_Subscribe appInstance program ;;
  '(_, err) ← Program_Run w program;
  match err with
  | Some e =>
      slog_Error "TUI run error" "error" e ;;
      ret_ (Some e)
  | None => ret_ None
  end.

(** [func RunWithProgressBar(ctx context.Context, cfg *Config, cwd string) error] *)
Definition RunWithProgressBar (w : World) (ctx : context) (cfg : option Config)
  (cwd : string) : M (option error) (option error) :=
  supportsProgress ← invoke (supportsProgressBar w);
  c ← deref cfg;
  let progressEnabled :=
    match Progress (Options c) with None => true | Some b => b end in
  (if progressEnabled && supportsProgress then
     fmt_Fprint Stderr (SetIndeterminateProgressBar w) ;;
     defer (DeferFprintf Stderr (ResetProgressBar w))
   else mret tt) ;;
  '(conn, err) ← db_Connect w ctx (DataDirectory (Options c));
  match err with
  | Some e => ret_ (Some e)
  | None =>
  '(appInstance, err) ← app_New w ctx conn c;
  match err with
  | Some e => ret_ (Some e)
  | None =>
  env ← os_Environ w;
  let com := common_DefaultCommon appInstance in
  let model := ui_New com in
  program ← tea_NewProgram model
    [WithEnvironment env; WithContext ctx; WithFilter MouseEventFilter];
  go_Subscribe appInstance program ;;
  '(_, err) ← Program_Run w program;
  match err with
  | Some e => ret_ (Some e)
  | None => ret_ None
  end
  end
  end.

(** [func Shutdown(appInstance *App)] *)
Definition Shutdown (appInstance : App) : M unit unit :=
  App_Shutdown appInstance.

(** ** Reading a trace *)

(** The calls a function makes when called in state [s]: what its run
    appends to the trace. *)
Definition calls_made {R} (body : M R R) (s : state) : list event :=
  drop (List.length (trace s)) (trace (call body s).2).

(** The strings handed to [fmt.Fprint] and [fmt.Fprintf] for file [f], in
    order. *)
Definition written (f : File) (tr : list event) : list string :=
  omap (fun e =>
    match e with
    | EvFprint f' s | EvFprintf f' s =>
        match f, f' with
        | Stdout, Stdout | Stderr, Stderr => Some s
        | _, _ => None
        end
    | _ => None
    end) tr.

(** Construction of the UI process, start of the Subscribe goroutine, and
    the blocking run. *)
Definition ui_event (e : event) : bool :=
  match e with
  | EvNewProgram _ | EvGoSubscribe _ _ | EvRun _ _ => true
  | _ => false
  end.

Definition log_event (e : event) : bool :=
  match e with
  | EvSlogError _ _ _ => true
  | _ => false
  end.

(** Calls that release what was acquired. *)
Definition release_event (e : event) : bool :=
  match e with
  | EvClose _ | EvShutdown _ => true
  | _ => false
  end.

(** Connections opened by [db.Connect] and not closed since.  Only calls
    made by [lib.go] count: a collaborator that is handed a connection is
    taken to leave it open. *)
Definition open_conns (tr : list event) : gset sql_DB :=
  foldl (fun o e =>
    match e with
    | EvConnect _ _ (Done conn) => o ∪ {[conn]}
    | EvClose conn => o ∖ {[conn]}
    | _ => o
    end) ∅ tr.

(** Every connection the trace opened has been closed again. *)
Definition all_released (tr : list event) : Prop := open_conns tr = ∅.

(** ** Closed forms of the functions of [lib.go] *)

(** Result of [supportsProgressBar]. *)
Definition supports (w : World) : bool :=
  is_terminal w Stderr_Fd &&
  (bool_decide (is_Some (environment w !! "WT_SESSION")) ||
   strings.Contains
     (strings.ToLower (default "" (environment w !! "TERM_PROGRAM"))) "ghostty").

Definition progressEnabled (c : Config) : bool :=
  match Progress (Options c) with None => true | Some b => b end.

(** The overlay decision of [RunWithProgressBar]. *)
Definition overlay (w : World) (c : Config) : bool :=
  progressEnabled c && supports w.

(** The UI process that both runners construct for [a]. *)
Definition program_for (w : World) (ctx : context) (a : App) : Program :=
  {| prog_model := ui_New (common_DefaultCommon a);
     prog_opts := [WithEnvironment (environment w); WithContext ctx;
                   WithFilter MouseEventFilter] |}.

Definition result_of_run (r : outcome unit) : result (option error) :=
  match r with
  | Done _ => Returned None
  | Failed e => Returned (Some e)
  | Panics v => Panicked v
  end.

(** Calls and result of the part of [RunWithProgressBar] that follows the
    overlay decision. *)
Definition enclosed (w : World) (ctx : context) (c : Config)
  : list event * result (option error) :=
  let dir := DataDirectory (Options c) in
  let rc := connect_outcome w ctx dir in
  match rc with
  | Done conn =>
      let rn := new_outcome w ctx conn c in
      match rn with
      | Done a =>
          let p := program_for w ctx a in
          let rr := run_outcome w p in
          ([EvConnect ctx dir rc; EvAppNew ctx conn c rn;
            EvNewProgram p; EvGoSubscribe a p; EvRun p rr],
           result_of_run rr)
      | Failed e =>
          ([EvConnect ctx dir rc; EvAppNew ctx conn c rn], Returned (Some e))
      | Panics v =>
          ([EvConnect ctx dir rc; EvAppNew ctx conn c rn], Panicked v)
      end
  | Failed e => ([EvConnect ctx dir rc], Returned (Some e))
  | Panics v => ([EvConnect ctx dir rc], Panicked v)
  end.

(** Calls of [RunTUI] for [a]. *)
Definition RunTUI_calls (w : World) (ctx : context) (a : App) : list event :=
  let p := program_for w ctx a in
  let rr := run_outcome w p in
  [EvNewProgram p; EvGoSubscribe a p; EvRun p rr] ++
  match rr with
  | Failed e => [EvSlogError "TUI run error" "error" e]
  | _ => []
  end.

(** Calls of [RunWithProgressBar] for a non-nil configuration [c]. *)
Definition RunWithProgressBar_calls (w : World) (ctx : context) (c : Config)
  : list event :=
  if overlay w c
  then EvFprint Stderr (SetIndeterminateProgressBar w)
       :: (enclosed w ctx c).1 ++ [EvFprintf Stderr (ResetProgressBar w)]
  else (enclosed w ctx c).1.

(** ** Worlds used as concrete inputs *)

Definition init : state := {| trace := []; held := ∅ |}.

Definition default_cfg : Config :=
  {| Options := {| DataDirectory := ".crush"; Progress := None |} |}.

(** A Ghostty terminal in which everything succeeds. *)
Definition ghostty_world : World :=
  {| is_terminal := fun fd => N.eqb fd 2;
     environment := {[ "TERM_PROGRAM" := "Ghostty"; "HOME" := "/root" ]};
     connect_outcome := fun _ _ => Done 7;
     new_outcome := fun _ _ _ => Done 9;
     run_outcome := fun _ => Done tt;
     SetIndeterminateProgressBar := "<progress:indeterminate>";
     ResetProgressBar := "<progress:reset>" |}.

Definition with_connect (r : outcome sql_DB) (w : World) : World :=
  {| is_terminal := is_terminal w; environment := environment w;
     connect_outcome := fun _ _ => r;
     new_outcome := new_outcome w; run_outcome := run_outcome w;
     SetIndeterminateProgressBar := SetIndeterminateProgressBar w;
     ResetProgressBar := ResetProgressBar w |}.

Definition with_new (r : outcome App) (w : World) : World :=
  {| is_terminal := is_terminal w; environment := environment w;
     connect_outcome := connect_outcome w;
     new_outcome := fun _ _ _ => r; run_outcome := run_outcome w;
     SetIndeterminateProgressBar := SetIndeterminateProgressBar w;
     ResetProgressBar := ResetProgressBar w |}.

Definition with_run (r : outcome unit) (w : World) : World :=
  {| is_terminal := is_terminal w; environment := environment w;
     connect_outcome := connect_outcome w;
     new_outcome := new_outcome w; run_outcome := fun _ => r;
     SetIndeterminateProgressBar := SetIndeterminateProgressBar w;
     ResetProgressBar := ResetProgressBar w |}.

(** App construction fails after the connection was opened. *)
Definition leak_world : World :=
  with_new (Failed (Err "no providers configured")) ghostty_world.

(** The UI loop fails. *)
Definition ui_failure_world : World :=
  with_run (Failed (Err "tty closed")) ghostty_world.

(** The same process with its output redirected and a different
    environment apart from the two variables that are consulted. *)
Definition other_world : World :=
  {| is_terminal := fun fd => N.eqb fd 2;
     environment := {[ "TERM_PROGRAM" := "Ghostty"; "HOME" := "/home/u";
                       "TERM" := "xterm-256color" ]};
     connect_outcome := fun _ _ => Failed (Err "unable to open database file");
     new_outcome := fun _ _ _ => Failed (Err "no providers configured");
     run_outcome := fun _ => Failed (Err "tty closed");
     SetIndeterminateProgressBar := "<progress:indeterminate>";
     ResetProgressBar := "<progress:reset>" |}.

(** Calls other than writes to a file. *)
Definition non_write (e : event) : bool :=
  match e with
  | EvFprint _ _ | EvFprintf _ _ => false
  | _ => true
  end.

(** The storage connect and the app construction. *)
Definition construction_event (e : event) : bool :=
  match e with
  | EvConnect _ _ _ | EvAppNew _ _ _ _ => true
  | _ => false
  end.

(** The contexts a UI process was constructed with. *)
Definition program_contexts (p : Program) : list context :=
  omap (fun o => match o with WithContext c => Some c | _ => None end)
    (prog_opts p).

(** Every context that the call [e] hands to a collaborator is [ctx]. *)
Definition carries_ctx (ctx : context) (e : event) : Prop :=
  match e with
  | EvConnect c _ _ | EvAppNew c _ _ _ => c = ctx
  | EvNewProgram p | EvGoSubscribe _ p | EvRun p _ =>
      program_contexts p = [ctx]
  | _ => True
  end.

(** Calls other than log records. *)
Definition not_log (e : event) : bool := negb (log_event e).

(** The calls appended to the trace between state [s] and state [s']. *)
Definition calls_between (s s' : state) : list event :=
  drop (List.length (trace s)) (trace s').

Definition with_terminal (t : N -> bool) (w : World) : World :=
  {| is_terminal := t; environment := environment w;
     connect_outcome := connect_outcome w;
     new_outcome := new_outcome w; run_outcome := run_outcome w;
     SetIndeterminateProgressBar := SetIndeterminateProgressBar w;
     ResetProgressBar := ResetProgressBar w |}.

Definition with_env (env : Environ) (w : World) : World :=
  {| is_terminal := is_terminal w; environment := env;
     connect_outcome := connect_outcome w;
     new_outcome := new_outcome w; run_outcome := run_outcome w;
     SetIndeterminateProgressBar := SetIndeterminateProgressBar w;
     ResetProgressBar := ResetProgressBar w |}.

(** * Properties *)

(** ** Strings *)
Section string_facts.
Import strings.

Lemma HasPrefix_spec s p :
  HasPrefix s p = true <-> exists suf, s = p ++ suf.
Proof.
  revert s. induction p as [|a p IH]; intros s; simpl.
  - split; [intros _; by exists s | done].
  - destruct s as [|c s].
    + split; [done | intros [suf H]; discriminate].
    + rewrite andb_true_iff, IH. split.
      * intros [Hc [suf ->]]. apply Ascii.eqb_eq in Hc as ->. by exists suf.
      * intros [suf H]. injection H as -> ->.
        split; [apply Ascii.eqb_refl | by exists suf].
Qed.

Lemma Contains_spec s p :
  Contains s p = true <-> exists pre suf, s = pre ++ p ++ suf.
Proof.
  induction s as [|c s IH].
  - simpl. rewrite orb_false_r, HasPrefix_spec. split.
    + intros [suf H]. by exists "", suf.
    + intros (pre & suf & H). destruct pre; [by exists suf | discriminate].
  - cbn [Contains]. rewrite orb_true_iff, IH, HasPrefix_spec. split.
    + intros [[suf H] | (pre & suf & H)].
      * by exists "", suf.
      * exists (String c pre), suf. simpl. by rewrite H.
    + intros (pre & suf & H). destruct pre as [|c' pre].
      * left. by exists suf.
      * right. injection H as _ H. by exists pre, suf.
Qed.

Lemma ToLower_app a b : ToLower (a ++ b) = ToLower a ++ ToLower b.
Proof. induction a as [|c a IH]; simpl; [done | by rewrite IH]. Qed.

Lemma ToLower_split s a b :
  ToLower s = a ++ b ->
  exists a' b', s = a' ++ b' /\ ToLower a' = a /\ ToLower b' = b.
Proof.
  revert s. induction a as [|c a IH]; intros s H.
  - by exists "", s.
  - destruct s as [|d s]; [discriminate |]. simpl in H.
    injection H as Hd H. destruct (IH _ H) as (a' & b' & -> & Ha & Hb).
    exists (String d a'), b'. simpl. by rewrite Hd, Ha.
Qed.

Lemma lower_letter c p :
  is_lower_letter p = true ->
  lower c = p <-> c = p \/ c = upper_of p.
Proof.
  unfold is_lower_letter, lower, upper_of. cbv zeta.
  rewrite andb_true_iff, !Nat.leb_le. intros [Hlo Hhi].
  pose proof (nat_ascii_bounded c) as Hc.
  pose proof (nat_ascii_bounded p) as Hp.
  assert (Hup : nat_of_ascii (ascii_of_nat (nat_of_ascii p - 32))
                = nat_of_ascii p - 32)
    by (apply nat_ascii_embedding; lia).
  destruct (Nat.leb_spec 65 (nat_of_ascii c));
    destruct (Nat.leb_spec (nat_of_ascii c) 90); simpl.
  - split.
    + intros Heq. right.
      assert (nat_of_ascii c + 32 = nat_of_ascii p) as <-.
      { rewrite <- Heq. symmetry. apply nat_ascii_embedding. lia. }
      replace (nat_of_ascii c + 32 - 32) with (nat_of_ascii c) by lia.
      by rewrite ascii_nat_embedding.
    + intros [-> | ->]; [lia |].
      rewrite Hup. replace (nat_of_ascii p - 32 + 32) with (nat_of_ascii p) by lia.
      apply ascii_nat_embedding.
  - split; [by left | intros [-> | ->]; [done | lia]].
  - split; [by left | intros [-> | ->]; [done | lia]].
  - lia.
Qed.

Lemma ToLower_spells mid pat :
  lower_letters pat = true -> ToLower mid = pat <-> spells mid pat.
Proof.
  revert mid. induction pat as [|p pat IH]; intros mid Hpat.
  - destruct mid; simpl; [done | split; [discriminate | done]].
  - simpl in Hpat. apply andb_true_iff in Hpat as [Hp Hpat].
    destruct mid as [|c mid]; simpl; [split; [discriminate | done] |].
    rewrite <- (IH mid Hpat), <- (lower_letter c p Hp). split.
    + intros H. by injection H.
    + by intros [-> ->].
Qed.

(** Searching the lowered string for a lower-case pattern finds exactly
    the occurrences of the pattern in any case. *)
Lemma Contains_ToLower s pat :
  lower_letters pat = true ->
  Contains (ToLower s) pat = true <-> contains_any_case s pat.
Proof.
  intros Hpat. rewrite Contains_spec. unfold contains_any_case. split.
  - intros (pre & suf & H).
    apply ToLower_split in H as (pre' & rest & -> & _ & H).
    apply ToLower_split in H as (mid & suf' & -> & Hmid & _).
    exists pre', mid, suf'. split; [done | by apply ToLower_spells].
  - intros (pre & mid & suf & -> & Hmid).
    exists (ToLower pre), (ToLower suf).
    rewrite !ToLower_app. by apply ToLower_spells in Hmid as ->.
Qed.

End string_facts.

(** ** The functions of [lib.go] in closed form *)

Local Open Scope list_scope.

Ltac unfold_lib :=
  unfold call, invoke, RunWithProgressBar, RunTUI, supportsProgressBar,
    IsTerminal, Shutdown, App_Shutdown,
    db_Connect, app_New, tea_NewProgram, go_Subscribe, Program_Run,
    slog_Error, fmt_Fprint, sql_DB_Close, term_IsTerminal, os_Getenv,
    os_LookupEnv, os_Environ, deref, defer, emitM, ret_, panic,
    mbind, M_bind, mret, M_ret, call.

(** Case analysis on the outcome of the next collaborator call. *)
Ltac case_outcome :=
  match goal with
  | |- context [match connect_outcome ?w ?c ?d with _ => _ end] =>
      destruct (connect_outcome w c d) as [?conn|?e|?v]; cbn
  | |- context [match new_outcome ?w ?c ?d ?f with _ => _ end] =>
      destruct (new_outcome w c d f) as [?a|?e|?v]; cbn
  | |- context [match run_outcome ?w ?p with _ => _ end] =>
      destruct (run_outcome w p) as [[]|?e|?v]; cbn
  end.

Lemma call_supportsProgressBar w s :
  call (supportsProgressBar w) s = (Returned (supports w), s).
Proof.
  unfold supports. unfold_lib. cbn.
  by destruct (is_terminal w Stderr_Fd).
Qed.

Lemma call_RunWithProgressBar w ctx c cwd s :
  call (RunWithProgressBar w ctx (Some c) cwd) s =
  ((enclosed w ctx c).2,
   {| trace := trace s ++ RunWithProgressBar_calls w ctx c;
      held := held s |}).
Proof.
  unfold RunWithProgressBar, mbind, M_bind at 1, invoke.
  unfold call at 1. rewrite call_supportsProgressBar.
  unfold RunWithProgressBar_calls, overlay, enclosed, progressEnabled, program_for, result_of_run.
  destruct s as [tr h]. unfold_lib. cbn.
  destruct (match Progress (Options c) with Some b => b | None => true end
            && supports w);
    cbn; unfold emit; cbn; repeat case_outcome.
  all: unfold emit; cbn; by rewrite <- ?app_assoc.
Qed.

Lemma call_RunWithProgressBar_nil w ctx cwd s :
  call (RunWithProgressBar w ctx None cwd) s =
  (Panicked "invalid memory address or nil pointer dereference", s).
Proof.
  unfold RunWithProgressBar, mbind, M_bind at 1, invoke.
  unfold call at 1. rewrite call_supportsProgressBar. by destruct s.
Qed.

Lemma call_RunTUI w ctx a s :
  call (RunTUI w ctx a) s =
  (result_of_run (run_outcome w (program_for w ctx a)),
   {| trace := trace s ++ RunTUI_calls w ctx a; held := held s |}).
Proof.
  unfold RunTUI_calls, program_for, result_of_run. destruct s as [tr h].
  unfold_lib. cbn. case_outcome.
  all: unfold emit; cbn; by rewrite <- ?app_assoc.
Qed.

Lemma calls_made_RunWithProgressBar w ctx c cwd s :
  calls_made (RunWithProgressBar w ctx (Some c) cwd) s
  = RunWithProgressBar_calls w ctx c.
Proof.
  unfold calls_made. rewrite call_RunWithProgressBar. cbn.
  by rewrite drop_app_length.
Qed.

Lemma calls_made_RunWithProgressBar_nil w ctx cwd s :
  calls_made (RunWithProgressBar w ctx None cwd) s = [].
Proof.
  unfold calls_made. rewrite call_RunWithProgressBar_nil. cbn.
  apply drop_all.
Qed.

Lemma calls_made_RunTUI w ctx a s :
  calls_made (RunTUI w ctx a) s = RunTUI_calls w ctx a.
Proof.
  unfold calls_made. rewrite call_RunTUI. cbn. by rewrite drop_app_length.
Qed.

(** ** Facts about the enclosed run *)

Lemma enclosed_no_writes f w ctx c : written f (enclosed w ctx c).1 = [].
Proof. unfold enclosed. cbv zeta. by repeat case_outcome. Qed.

Lemma enclosed_no_log w ctx c : filter log_event (enclosed w ctx c).1 = [].
Proof. unfold enclosed. cbv zeta. by repeat case_outcome. Qed.

Lemma enclosed_no_release w ctx c :
  filter release_event (enclosed w ctx c).1 = [].
Proof. unfold enclosed. cbv zeta. by repeat case_outcome. Qed.

Lemma written_Fprint f s tr : EvFprint f s ∈ tr -> s ∈ written f tr.
Proof.
  intros H. unfold written. apply list_elem_of_omap.
  exists (EvFprint f s). split; [done | by destruct f].
Qed.

Lemma written_app f tr1 tr2 :
  written f (tr1 ++ tr2) = written f tr1 ++ written f tr2.
Proof. apply omap_app. Qed.

Lemma written_bracket f a b mid :
  written f (EvFprint f a :: mid ++ [EvFprintf f b])
  = a :: written f mid ++ [b].
Proof.
  change (EvFprint f a :: mid ++ [EvFprintf f b])
    with ([EvFprint f a] ++ mid ++ [EvFprintf f b]).
  rewrite !written_app. by destruct f.
Qed.

Lemma enclosed_no_enter w ctx c f s : EvFprint f s ∉ (enclosed w ctx c).1.
Proof.
  intros H%written_Fprint. rewrite enclosed_no_writes in H.
  by apply elem_of_nil in H.
Qed.

(** ** Progress overlay *)

(** C1.  Whenever a run of [RunWithProgressBar] writes the overlay enter
    sequence, that write is the first call of the run, the write of the
    reset sequence is the last call before the function returns (or unwinds),
    and nothing else is written to stderr in between: the reset is written
    exactly once.  This holds for every outcome of the storage connect, the
    app construction and the UI loop. *)
Theorem C1_overlay_reset_exactly_once w ctx cfg cwd s :
  EvFprint Stderr (SetIndeterminateProgressBar w)
    ∈ calls_made (RunWithProgressBar w ctx cfg cwd) s ->
  (exists mid,
     calls_made (RunWithProgressBar w ctx cfg cwd) s =
       EvFprint Stderr (SetIndeterminateProgressBar w)
       :: mid ++ [EvFprintf Stderr (ResetProgressBar w)]
     /\ written Stderr mid = []) /\
  written Stderr (calls_made (RunWithProgressBar w ctx cfg cwd) s) =
    [SetIndeterminateProgressBar w; ResetProgressBar w].
Proof.
  destruct cfg as [c|].
  - rewrite calls_made_RunWithProgressBar. unfold RunWithProgressBar_calls.
    destruct (overlay w c).
    + intros _. split.
      * exists (enclosed w ctx c).1. split; [done | apply enclosed_no_writes].
      * by rewrite written_bracket, enclosed_no_writes.
    + intros H. by apply enclosed_no_enter in H.
  - rewrite calls_made_RunWithProgressBar_nil. intros H.
    by apply elem_of_nil in H.
Qed.

Lemma C1_witness :
  written Stderr
    (calls_made (RunWithProgressBar ghostty_world (Ctx 0) (Some default_cfg) "/")
       init) =
    ["<progress:indeterminate>"; "<progress:reset>"].
Proof.
  apply (C1_overlay_reset_exactly_once ghostty_world (Ctx 0) (Some default_cfg)
           "/" init).
  rewrite calls_made_RunWithProgressBar.
  apply list_elem_of_here.
Defined.

(** C3.  [RunWithProgressBar] writes the overlay enter sequence exactly when
    the progress flag of the configuration is nil or true and
    [supportsProgressBar()] returns true.  With the flag set to false nothing
    at all is written to stderr, whatever the capability check says. *)
Theorem C3_overlay_decision w ctx c cwd s :
  (EvFprint Stderr (SetIndeterminateProgressBar w)
     ∈ calls_made (RunWithProgressBar w ctx (Some c) cwd) s
   <->
   (Progress (Options c) = None \/ Progress (Options c) = Some true) /\
   (call (supportsProgressBar w) s).1 = Returned true)
  /\
  (Progress (Options c) = Some false ->
   written Stderr (calls_made (RunWithProgressBar w ctx (Some c) cwd) s) = []).
Proof.
  rewrite calls_made_RunWithProgressBar, call_supportsProgressBar.
  unfold RunWithProgressBar_calls, overlay, progressEnabled. cbn [fst].
  split.
  - destruct (Progress (Options c)) as [[]|], (supports w); cbn [andb]; split;
      try (intros H; by apply enclosed_no_enter in H);
      try (intros _; apply list_elem_of_here);
      try (intros [[?|?] ?]; done);
      intros _; split; auto.
  - intros ->. apply enclosed_no_writes.
Qed.

Lemma C3_witness :
  written Stderr
    (calls_made
       (RunWithProgressBar ghostty_world (Ctx 0)
          (Some {| Options := {| DataDirectory := ".crush";
                                 Progress := Some false |} |}) "/")
       init) = [].
Proof.
  apply (C3_overlay_decision ghostty_world (Ctx 0)
           {| Options := {| DataDirectory := ".crush";
                            Progress := Some false |} |} "/" init).
  reflexivity.
Defined.

(** ** Capability detection *)

(** C4.  [supportsProgressBar] returns false when stderr is not a terminal,
    whatever the environment holds.  When stderr is a terminal it returns
    true exactly when [TERM_PROGRAM] is set to a value that contains
    "ghostty" in any mix of cases, or [WT_SESSION] is present (with any
    value, the empty one included); so with neither signal it returns
    false. *)
Theorem C4_supportsProgressBar_decision w s :
  exists b,
    call (supportsProgressBar w) s = (Returned b, s) /\
    (is_terminal w Stderr_Fd = false -> b = false) /\
    (is_terminal w Stderr_Fd = true ->
     b = true <->
     (exists v, environment w !! "TERM_PROGRAM" = Some v /\
                strings.contains_any_case v "ghostty") \/
     is_Some (environment w !! "WT_SESSION")).
Proof.
  exists (supports w). split; [apply call_supportsProgressBar |].
  unfold supports. split; [by intros -> |]. intros ->. cbn [andb].
  rewrite orb_true_iff, bool_decide_eq_true, Contains_ToLower by done.
  split.
  - intros [H | H]; [by right | left].
    destruct (environment w !! "TERM_PROGRAM") as [v|]; [by exists v |].
    destruct H as (pre & mid & suf & H & Hs).
    destruct pre, mid; simpl in *; done.
  - intros [(v & -> & H) | H]; [by right | by left].
Qed.

Lemma C4_witness :
  (call (supportsProgressBar ghostty_world) init).1 = Returned true.
Proof.
  destruct (C4_supportsProgressBar_decision ghostty_world init)
    as (b & -> & _ & Hb).
  cbn [fst]. f_equal. apply Hb; [reflexivity |].
  left. exists "Ghostty". split; [reflexivity |].
  exists "", "Ghostty", "". split; [reflexivity |].
  cbn. repeat split; (by left) || (by right).
Defined.

(** C9.  Two processes that agree on whether stderr is a terminal and on
    the entries [TERM_PROGRAM] and [WT_SESSION] of their environments get
    the same answer from [supportsProgressBar], whatever else differs; and
    the call leaves the process state as it found it. *)
Theorem C9_supportsProgressBar_noninterference w1 w2 s1 s2 :
  is_terminal w1 Stderr_Fd = is_terminal w2 Stderr_Fd ->
  environment w1 !! "TERM_PROGRAM" = environment w2 !! "TERM_PROGRAM" ->
  environment w1 !! "WT_SESSION" = environment w2 !! "WT_SESSION" ->
  (call (supportsProgressBar w1) s1).1 = (call (supportsProgressBar w2) s2).1 /\
  (call (supportsProgressBar w1) s1).2 = s1 /\
  (call (supportsProgressBar w2) s2).2 = s2.
Proof.
  intros Ht Hp Hs. rewrite !call_supportsProgressBar. cbn [fst snd].
  unfold supports. by rewrite Ht, Hp, Hs.
Qed.

Lemma C9_witness :
  (call (supportsProgressBar ghostty_world) init).1
  = (call (supportsProgressBar other_world)
       {| trace := [EvClose 3]; held := {[ 9 := [1; 2] ]} |}).1.
Proof.
  apply (C9_supportsProgressBar_noninterference ghostty_world other_world);
    reflexivity.
Defined.

(** ** Failures before the UI *)

(** C7.  When the storage connect fails, [RunWithProgressBar] returns that
    error; it constructs no UI process, starts no Subscribe goroutine and
    never enters the blocking run.  If the overlay enter sequence was
    written, the run consists of exactly three calls: the enter write, the
    failed connect, and the reset write; otherwise of the failed connect
    alone. *)
Theorem C7_connect_failure w ctx c cwd s e :
  connect_outcome w ctx (DataDirectory (Options c)) = Failed e ->
  (call (RunWithProgressBar w ctx (Some c) cwd) s).1 = Returned (Some e) /\
  filter ui_event (calls_made (RunWithProgressBar w ctx (Some c) cwd) s) = [] /\
  (EvFprint Stderr (SetIndeterminateProgressBar w)
     ∈ calls_made (RunWithProgressBar w ctx (Some c) cwd) s ->
   calls_made (RunWithProgressBar w ctx (Some c) cwd) s =
     [EvFprint Stderr (SetIndeterminateProgressBar w);
      EvConnect ctx (DataDirectory (Options c)) (Failed e);
      EvFprintf Stderr (ResetProgressBar w)]) /\
  (EvFprint Stderr (SetIndeterminateProgressBar w)
     ∉ calls_made (RunWithProgressBar w ctx (Some c) cwd) s ->
   calls_made (RunWithProgressBar w ctx (Some c) cwd) s =
     [EvConnect ctx (DataDirectory (Options c)) (Failed e)]).
Proof.
  intros Hc. rewrite calls_made_RunWithProgressBar, call_RunWithProgressBar.
  unfold RunWithProgressBar_calls, enclosed. cbv zeta. rewrite Hc. cbn [fst snd].
  split; [done |]. destruct (overlay w c); cbn.
  - split; [done |]. split; [done |]. intros H. exfalso. apply H. by left.
  - split; [done |]. split; [| done]. intros H.
    apply list_elem_of_singleton in H. discriminate.
Qed.

Lemma C7_witness :
  let w := with_connect (Failed (Err "unable to open database file"))
             ghostty_world in
  (call (RunWithProgressBar w (Ctx 0) (Some default_cfg) "/") init).1
    = Returned (Some (Err "unable to open database file")) /\
  calls_made (RunWithProgressBar w (Ctx 0) (Some default_cfg) "/") init =
    [EvFprint Stderr "<progress:indeterminate>";
     EvConnect (Ctx 0) ".crush" (Failed (Err "unable to open database file"));
     EvFprintf Stderr "<progress:reset>"].
Proof.
  intros w.
  destruct (C7_connect_failure w (Ctx 0) default_cfg "/" init
              (Err "unable to open database file") eq_refl)
    as (Hr & _ & Hon & _).
  split; [exact Hr |]. apply Hon.
  rewrite calls_made_RunWithProgressBar. apply list_elem_of_here.
Defined.

(** C10.  Once [db.Connect] has handed a connection to
    [RunWithProgressBar], the function makes no [Close] and no [Shutdown]
    call on any path, so the connection is still open when it returns,
    whether the app construction fails, the UI loop fails or the UI exits
    normally.  The function's result is an [error] only: the handle does not
    reach the caller. *)
Theorem C10_connection_never_closed w ctx c cwd s conn :
  connect_outcome w ctx (DataDirectory (Options c)) = Done conn ->
  filter release_event (calls_made (RunWithProgressBar w ctx (Some c) cwd) s)
    = [] /\
  conn ∈ open_conns (calls_made (RunWithProgressBar w ctx (Some c) cwd) s).
Proof.
  intros Hc. rewrite calls_made_RunWithProgressBar.
  unfold RunWithProgressBar_calls. split.
  - destruct (overlay w c); [| apply enclosed_no_release].
    rewrite filter_cons_False, filter_app, enclosed_no_release by (cbn; tauto).
    done.
  - unfold enclosed. cbv zeta. rewrite Hc.
    destruct (overlay w c); repeat case_outcome;
      unfold open_conns; cbn; set_solver.
Qed.

Lemma C10_witness :
  7 ∈ open_conns
        (calls_made
           (RunWithProgressBar ghostty_world (Ctx 0) (Some default_cfg) "/")
           init).
Proof.
  apply (C10_connection_never_closed ghostty_world (Ctx 0) default_cfg "/"
           init 7).
  reflexivity.
Defined.

(** C6, as stated, fails: when [app.New] fails after [db.Connect] succeeded,
    [RunWithProgressBar] returns the error and connection 7 is still open. *)
Lemma C6_counterexample :
  connect_outcome leak_world (Ctx 0) ".crush" = Done 7 /\
  new_outcome leak_world (Ctx 0) 7 default_cfg
    = Failed (Err "no providers configured") /\
  (call (RunWithProgressBar leak_world (Ctx 0) (Some default_cfg) "/") init).1
    = Returned (Some (Err "no providers configured")) /\
  ~ all_released
      (calls_made
         (RunWithProgressBar leak_world (Ctx 0) (Some default_cfg) "/") init).
Proof.
  split; [done |]. split; [done |]. split.
  - by rewrite call_RunWithProgressBar.
  - rewrite calls_made_RunWithProgressBar. unfold all_released.
    intros H. assert (7 ∈ (∅ : gset sql_DB)) as H7; [| set_solver].
    rewrite <- H. vm_compute. set_solver.
Qed.

(** C6, amended.  Every construction-stage failure of [RunWithProgressBar]
    returns the error before a UI process is constructed, a Subscribe
    goroutine is started or the blocking run is entered.  A failed storage
    connect leaves no connection open.  A failed app construction returns
    without a [Close] or [Shutdown] call: the connection that was opened
    for it stays open. *)
Theorem C6_construction_failure w ctx c cwd s e :
  (connect_outcome w ctx (DataDirectory (Options c)) = Failed e ->
   (call (RunWithProgressBar w ctx (Some c) cwd) s).1 = Returned (Some e) /\
   filter ui_event (calls_made (RunWithProgressBar w ctx (Some c) cwd) s) = [] /\
   all_released (calls_made (RunWithProgressBar w ctx (Some c) cwd) s))
  /\
  (forall conn,
   connect_outcome w ctx (DataDirectory (Options c)) = Done conn ->
   new_outcome w ctx conn c = Failed e ->
   (call (RunWithProgressBar w ctx (Some c) cwd) s).1 = Returned (Some e) /\
   filter ui_event (calls_made (RunWithProgressBar w ctx (Some c) cwd) s) = [] /\
   filter release_event
     (calls_made (RunWithProgressBar w ctx (Some c) cwd) s) = [] /\
   open_conns (calls_made (RunWithProgressBar w ctx (Some c) cwd) s)
     = {[conn]}).
Proof.
  rewrite calls_made_RunWithProgressBar, call_RunWithProgressBar.
  unfold RunWithProgressBar_calls, all_released, enclosed. cbv zeta.
  cbn [fst]. split.
  - intros ->. cbn. split; [done |].
    destruct (overlay w c); unfold open_conns; cbn; done.
  - intros conn -> ->. cbn. split; [done |].
    destruct (overlay w c); unfold open_conns; cbn;
      (split; [done |]); (split; [done |]); by rewrite (left_id_L ∅ (∪)).
Qed.

Lemma C6_witness :
  open_conns
    (calls_made
       (RunWithProgressBar leak_world (Ctx 0) (Some default_cfg) "/") init)
  = {[7]}.
Proof.
  apply (C6_construction_failure leak_world (Ctx 0) default_cfg "/" init
           (Err "no providers configured")); reflexivity.
Defined.

(** ** UI-loop failures *)

(** [RunTUI] makes its calls in this order: the UI process is constructed,
    the Subscribe goroutine is started with that process as its sink, and
    only then the blocking run is entered. *)
Lemma RunTUI_starts_bridge_before_run w ctx a s :
  exists rest,
    calls_made (RunTUI w ctx a) s =
      EvNewProgram (program_for w ctx a)
      :: EvGoSubscribe a (program_for w ctx a)
      :: EvRun (program_for w ctx a) (run_outcome w (program_for w ctx a))
      :: rest.
Proof. rewrite calls_made_RunTUI. unfold RunTUI_calls. by eexists. Qed.

(** The same order holds in [RunWithProgressBar] whenever it reaches the
    blocking run. *)
Lemma RunWithProgressBar_starts_bridge_before_run w ctx c cwd s i p r :
  calls_made (RunWithProgressBar w ctx (Some c) cwd) s !! S i
    = Some (EvRun p r) ->
  exists a, calls_made (RunWithProgressBar w ctx (Some c) cwd) s !! i
            = Some (EvGoSubscribe a p).
Proof.
  rewrite calls_made_RunWithProgressBar.
  unfold RunWithProgressBar_calls, enclosed. cbv zeta.
  destruct (overlay w c); repeat case_outcome; intros H;
    do 8 (destruct i as [|i]; try discriminate;
          try (injection H as <- <-; by eexists)).
Qed.

(** A failing UI loop under [RunTUI]: one log record, then the error is
    returned as it came. *)
Lemma RunTUI_failure_logged w ctx a s e :
  run_outcome w (program_for w ctx a) = Failed e ->
  (call (RunTUI w ctx a) s).1 = Returned (Some e) /\
  filter log_event (calls_made (RunTUI w ctx a) s)
    = [EvSlogError "TUI run error" "error" e].
Proof.
  intros H. rewrite call_RunTUI, calls_made_RunTUI.
  unfold RunTUI_calls. cbv zeta. by rewrite H.
Qed.

Lemma RunTUI_success w ctx a s :
  run_outcome w (program_for w ctx a) = Done tt ->
  (call (RunTUI w ctx a) s).1 = Returned None /\
  filter log_event (calls_made (RunTUI w ctx a) s) = [].
Proof.
  intros H. rewrite call_RunTUI, calls_made_RunTUI.
  unfold RunTUI_calls. cbv zeta. by rewrite H.
Qed.

(** [RunWithProgressBar] has no call to the logger on any path. *)
Lemma RunWithProgressBar_never_logs w ctx cfg cwd s :
  filter log_event (calls_made (RunWithProgressBar w ctx cfg cwd) s) = [].
Proof.
  destruct cfg as [c|]; [| by rewrite calls_made_RunWithProgressBar_nil].
  rewrite calls_made_RunWithProgressBar. unfold RunWithProgressBar_calls.
  destruct (overlay w c); [| apply enclosed_no_log].
  rewrite filter_cons_False, filter_app, enclosed_no_log by (cbn; tauto).
  done.
Qed.

(** The result of [RunWithProgressBar] once the blocking run is reached. *)
Lemma RunWithProgressBar_run_result w ctx c cwd s conn a :
  connect_outcome w ctx (DataDirectory (Options c)) = Done conn ->
  new_outcome w ctx conn c = Done a ->
  (call (RunWithProgressBar w ctx (Some c) cwd) s).1
    = result_of_run (run_outcome w (program_for w ctx a)).
Proof.
  intros Hc Hn. rewrite call_RunWithProgressBar. unfold enclosed. cbv zeta.
  by rewrite Hc, Hn.
Qed.

(** C5, at the failing input.  The UI loop fails with "tty closed".
    [RunTUI] emits the log record "TUI run error" and returns the error;
    [RunWithProgressBar] returns the same error but emits no log record. *)
Theorem C5_RunWithProgressBar_omits_log :
  (call (RunTUI ui_failure_world (Ctx 0) 9) init).1
    = Returned (Some (Err "tty closed")) /\
  filter log_event (calls_made (RunTUI ui_failure_world (Ctx 0) 9) init)
    = [EvSlogError "TUI run error" "error" (Err "tty closed")] /\
  (call (RunWithProgressBar ui_failure_world (Ctx 0) (Some default_cfg) "/")
     init).1
    = Returned (Some (Err "tty closed")) /\
  filter log_event
    (calls_made
       (RunWithProgressBar ui_failure_world (Ctx 0) (Some default_cfg) "/")
       init) = [].
Proof.
  split; [| split; [| split]].
  - by apply RunTUI_failure_logged.
  - by apply RunTUI_failure_logged.
  - by rewrite (RunWithProgressBar_run_result _ _ _ _ _ 7 9).
  - apply RunWithProgressBar_never_logs.
Qed.

(** ** Shutdown *)

(** C8.  [Shutdown] returns for every application instance in every state.
    A second [Shutdown] of the same instance returns as well and leaves the
    resources held by the backend as the first call left them.  It returns
    whether it is called on the state left by a UI run or without one. *)
Theorem C8_Shutdown_idempotent a s :
  exists s1,
    call (Shutdown a) s = (Returned tt, s1) /\
    held s1 !! a = Some [] /\
    (exists s2, call (Shutdown a) s1 = (Returned tt, s2) /\ held s2 = held s1) /\
    (forall w ctx,
       exists s3,
         call (Shutdown a) (call (RunTUI w ctx a) s).2 = (Returned tt, s3) /\
         held s3 = held s1).
Proof.
  eexists. split; [reflexivity |]. cbn. split; [apply lookup_insert_eq |].
  split.
  - eexists. split; [reflexivity |]. cbn. apply insert_insert_eq.
  - intros w ctx. eexists. split; [reflexivity |].
    by rewrite call_RunTUI.
Qed.

(** ** Examples *)

Example ToLower_ex : strings.ToLower "GhoSTty-1.0 [X]" = "ghostty-1.0 [x]".
Proof. reflexivity. Qed.

Example Contains_ex :
  strings.Contains "xterm-ghostty" "ghostty" = true /\
  strings.Contains "ghostt" "ghostty" = false /\
  strings.Contains "" "" = true.
Proof. repeat split; reflexivity. Qed.

Example supportsProgressBar_windows_terminal :
  let w := {| is_terminal := fun _ => true;
              environment := {[ "WT_SESSION" := "" ]};
              connect_outcome := fun _ _ => Done 1;
              new_outcome := fun _ _ _ => Done 2;
              run_outcome := fun _ => Done tt;
              SetIndeterminateProgressBar := "<progress:indeterminate>";
              ResetProgressBar := "<progress:reset>" |} in
  (call (supportsProgressBar w) init).1 = Returned true.
Proof. reflexivity. Qed.

Example RunWithProgressBar_nil_cfg :
  call (RunWithProgressBar ghostty_world (Ctx 0) None "/") init
  = (Panicked "invalid memory address or nil pointer dereference", init).
Proof. apply call_RunWithProgressBar_nil. Qed.

Example RunWithProgressBar_unwinds_through_reset :
  let w := with_run (Panics "render: index out of range") ghostty_world in
  (call (RunWithProgressBar w (Ctx 0) (Some default_cfg) "/") init).1
    = Panicked "render: index out of range" /\
  last (calls_made (RunWithProgressBar w (Ctx 0) (Some default_cfg) "/") init)
    = Some (EvFprintf Stderr "<progress:reset>").
Proof.
  intros w. rewrite call_RunWithProgressBar, calls_made_RunWithProgressBar.
  split; reflexivity.
Qed.

(** ** The UI runner *)

(** X1.  [RunTUI] returns what the blocking run returned: nil after a
    normal exit, the run's error as it came, and a panic of the run unwinds
    through it.  It emits the log record "TUI run error" exactly when the run
    returned an error, as its last call; after a normal exit or a panic it
    logs nothing. *)
Theorem RunTUI_result_and_log w ctx a s :
  (call (RunTUI w ctx a) s).1
    = match run_outcome w (program_for w ctx a) with
      | Done _ => Returned None
      | Failed e => Returned (Some e)
      | Panics v => Panicked v
      end /\
  filter log_event (calls_made (RunTUI w ctx a) s)
    = match run_outcome w (program_for w ctx a) with
      | Failed e => [EvSlogError "TUI run error" "error" e]
      | _ => []
      end /\
  (forall e, run_outcome w (program_for w ctx a) = Failed e ->
     last (calls_made (RunTUI w ctx a) s)
       = Some (EvSlogError "TUI run error" "error" e)).
Proof.
  rewrite call_RunTUI, calls_made_RunTUI. unfold RunTUI_calls, result_of_run.
  cbv zeta. split; [done |]. split.
  - by destruct (run_outcome w (program_for w ctx a)).
  - by intros e ->.
Qed.

Lemma RunTUI_result_and_log_witness :
  last (calls_made (RunTUI ui_failure_world (Ctx 0) 9) init)
  = Some (EvSlogError "TUI run error" "error" (Err "tty closed")).
Proof.
  apply (RunTUI_result_and_log ui_failure_world (Ctx 0) 9 init).
  reflexivity.
Defined.

(** X2.  One UI process per invocation.  [RunTUI] constructs exactly one
    program, from the instance it was given, the environment snapshot, the
    caller's context and the mouse filter; it starts one Subscribe goroutine
    on that instance with that program as sink, then runs that same program
    once.  [RunWithProgressBar] does the same for the instance that
    [app.New] returned, or makes none of these calls. *)
Theorem one_ui_process_per_invocation w ctx a c cwd s :
  filter ui_event (calls_made (RunTUI w ctx a) s)
    = [EvNewProgram (program_for w ctx a);
       EvGoSubscribe a (program_for w ctx a);
       EvRun (program_for w ctx a) (run_outcome w (program_for w ctx a))] /\
  (filter ui_event (calls_made (RunWithProgressBar w ctx (Some c) cwd) s) = []
   \/
   exists conn a',
     connect_outcome w ctx (DataDirectory (Options c)) = Done conn /\
     new_outcome w ctx conn c = Done a' /\
     filter ui_event (calls_made (RunWithProgressBar w ctx (Some c) cwd) s)
       = [EvNewProgram (program_for w ctx a');
          EvGoSubscribe a' (program_for w ctx a');
          EvRun (program_for w ctx a')
            (run_outcome w (program_for w ctx a'))]).
Proof.
  rewrite calls_made_RunTUI, calls_made_RunWithProgressBar. split.
  - unfold RunTUI_calls. cbv zeta.
    by destruct (run_outcome w (program_for w ctx a)).
  - unfold RunWithProgressBar_calls, enclosed. cbv zeta.
    destruct (connect_outcome w ctx (DataDirectory (Options c)))
      as [conn|e|v] eqn:Hc;
      [destruct (new_outcome w ctx conn c) as [a'|e|v] eqn:Hn |..].
    1: right; exists conn, a'; split; [done |]; split; [done |].
    all: destruct (overlay w c); cbn; auto.
Qed.

(** X3.  [RunTUI] makes no call besides constructing the program, starting
    the goroutine, running the program and logging: it writes nothing to
    stdout or stderr, opens and closes no connection, and does not shut the
    instance down. *)
Theorem RunTUI_only_runs_the_ui w ctx a s :
  Forall (fun e => ui_event e || log_event e) (calls_made (RunTUI w ctx a) s) /\
  (forall f, written f (calls_made (RunTUI w ctx a) s) = []) /\
  filter release_event (calls_made (RunTUI w ctx a) s) = [] /\
  filter construction_event (calls_made (RunTUI w ctx a) s) = [].
Proof.
  rewrite calls_made_RunTUI. unfold RunTUI_calls. cbv zeta.
  destruct (run_outcome w (program_for w ctx a)); cbn;
    repeat split; try done; repeat constructor.
Qed.

(** ** The full pipeline *)


(** X5.  With a nil configuration [RunWithProgressBar] panics on reading
    the progress flag, before it has made any call: nothing is written to
    stderr and no connection is opened. *)
Theorem RunWithProgressBar_nil_cfg_panics w ctx cwd s :
  exists v,
    call (RunWithProgressBar w ctx None cwd) s = (Panicked v, s) /\
    calls_made (RunWithProgressBar w ctx None cwd) s = [].
Proof.
  eexists. split; [apply call_RunWithProgressBar_nil |].
  apply calls_made_RunWithProgressBar_nil.
Qed.

(** X6.  The storage connect is the first collaborator call of
    [RunWithProgressBar] and receives the data directory of the
    configuration; [app.New] is called exactly when the connect succeeded,
    once, with the connection the connect returned and the caller's
    configuration. *)
Theorem RunWithProgressBar_construction_calls w ctx c cwd s :
  filter construction_event
    (calls_made (RunWithProgressBar w ctx (Some c) cwd) s)
  = EvConnect ctx (DataDirectory (Options c))
      (connect_outcome w ctx (DataDirectory (Options c)))
    :: match connect_outcome w ctx (DataDirectory (Options c)) with
       | Done conn => [EvAppNew ctx conn c (new_outcome w ctx conn c)]
       | _ => []
       end /\
  head (filter non_write
          (calls_made (RunWithProgressBar w ctx (Some c) cwd) s))
  = Some (EvConnect ctx (DataDirectory (Options c))
            (connect_outcome w ctx (DataDirectory (Options c)))).
Proof.
  rewrite calls_made_RunWithProgressBar.
  unfold RunWithProgressBar_calls, enclosed. cbv zeta.
  destruct (overlay w c); repeat case_outcome; by cbn.
Qed.

(** X7.  The caller's context is the one handed to every collaborator: to
    [db.Connect], to [app.New], and, as its only context option, to the UI
    process that is constructed, subscribed and run.  This holds for both
    runners. *)
Theorem context_reaches_every_collaborator w ctx a cfg cwd s :
  Forall (carries_ctx ctx) (calls_made (RunTUI w ctx a) s) /\
  Forall (carries_ctx ctx) (calls_made (RunWithProgressBar w ctx cfg cwd) s).
Proof.
  split.
  - rewrite calls_made_RunTUI. unfold RunTUI_calls. cbv zeta.
    destruct (run_outcome w (program_for w ctx a)); repeat constructor.
  - destruct cfg as [c|];
      [| rewrite calls_made_RunWithProgressBar_nil; constructor].
    rewrite calls_made_RunWithProgressBar.
    unfold RunWithProgressBar_calls, enclosed. cbv zeta.
    destruct (overlay w c); repeat case_outcome;
      rewrite ?Forall_cons, ?Forall_nil; cbn; tauto.
Qed.

(** X8.  Whether stderr is a terminal changes nothing but the writes to
    stderr: the result of [RunWithProgressBar] and all its other calls are
    the same for any two answers of the terminal check.  The [cwd] argument
    has no influence either. *)
Theorem overlay_is_transparent w t ctx c cwd cwd' s :
  (call (RunWithProgressBar (with_terminal t w) ctx (Some c) cwd) s).1
    = (call (RunWithProgressBar w ctx (Some c) cwd') s).1 /\
  filter non_write
    (calls_made (RunWithProgressBar (with_terminal t w) ctx (Some c) cwd) s)
    = filter non_write
        (calls_made (RunWithProgressBar w ctx (Some c) cwd') s).
Proof.
  rewrite !calls_made_RunWithProgressBar, !call_RunWithProgressBar.
  cbn [fst snd].
  assert (enclosed (with_terminal t w) ctx c = enclosed w ctx c) as Henc by done.
  assert (forall (b : bool) (w' : World),
            filter non_write
              (if b then EvFprint Stderr (SetIndeterminateProgressBar w')
                         :: (enclosed w ctx c).1
                         ++ [EvFprintf Stderr (ResetProgressBar w')]
               else (enclosed w ctx c).1)
            = filter non_write (enclosed w ctx c).1) as Hfilter.
  { intros [] w'; [| done].
    rewrite filter_cons_False, filter_app by (cbn; tauto).
    change (filter non_write [EvFprintf Stderr (ResetProgressBar w')])
      with (@List.nil event).
    by rewrite app_nil_r. }
  unfold RunWithProgressBar_calls. rewrite Henc, !Hfilter. done.
Qed.

(** X9.  Doing the pipeline by hand gives the same run.  When the connect
    and the app construction succeed, calling [Connect], then [NewApp] with
    the connection, then [RunTUI] with the instance returns what
    [RunWithProgressBar] returns, and makes the same collaborator calls in
    the same order; the two differ only in that [RunWithProgressBar] may
    write the overlay sequences and [RunTUI] logs a failed run. *)
Theorem manual_pipeline_agrees w ctx c cwd s conn a :
  connect_outcome w ctx (DataDirectory (Options c)) = Done conn ->
  new_outcome w ctx conn c = Done a ->
  let r1 := call (Connect w ctx (DataDirectory (Options c))) s in
  let r2 := call (NewApp w ctx conn c) r1.2 in
  let r3 := call (RunTUI w ctx a) r2.2 in
  r1.1 = Returned (conn, None) /\
  r2.1 = Returned (a, None) /\
  r3.1 = (call (RunWithProgressBar w ctx (Some c) cwd) s).1 /\
  filter not_log (calls_between s r3.2)
    = filter non_write
        (calls_made (RunWithProgressBar w ctx (Some c) cwd) s).
Proof.
  intros Hc Hn. cbv zeta.
  assert (call (Connect w ctx (DataDirectory (Options c))) s
          = (Returned (conn, None),
             emit (EvConnect ctx (DataDirectory (Options c)) (Done conn)) s))
    as ->.
  { unfold Connect. unfold_lib. by rewrite Hc. }
  cbn [fst snd].
  assert (forall s', call (NewApp w ctx conn c) s'
          = (Returned (a, None), emit (EvAppNew ctx conn c (Done a)) s'))
    as ->.
  { intros s'. unfold NewApp. unfold_lib. by rewrite Hn. }
  cbn [fst snd].
  rewrite call_RunTUI, call_RunWithProgressBar, calls_made_RunWithProgressBar.
  unfold calls_between, RunWithProgressBar_calls, RunTUI_calls, enclosed.
  cbv zeta. rewrite Hc, Hn. cbn [fst snd trace emit].
  rewrite <- !app_assoc, drop_app_length.
  split; [done |]. split; [done |]. split; [done |].
  destruct (overlay w c), (run_outcome w (program_for w ctx a)); by cbn.
Qed.

Lemma manual_pipeline_agrees_witness :
  (call (RunTUI ui_failure_world (Ctx 0) 9)
     (call (NewApp ui_failure_world (Ctx 0) 7 default_cfg)
        (call (Connect ui_failure_world (Ctx 0) ".crush") init).2).2).1
  = (call (RunWithProgressBar ui_failure_world (Ctx 0) (Some default_cfg) "/")
       init).1.
Proof.
  apply (manual_pipeline_agrees ui_failure_world (Ctx 0) default_cfg "/" init
           7 9); reflexivity.
Defined.

(** ** Capability detection, again *)

(** X10.  [supportsProgressBar] answers true only on a process for which the
    exported probe [IsTerminal] answers true for the descriptor of stderr;
    the probe changes nothing. *)
Theorem supportsProgressBar_needs_terminal w s :
  (call (supportsProgressBar w) s).1 = Returned true ->
  call (IsTerminal w Stderr_Fd) s = (Returned true, s).
Proof.
  rewrite call_supportsProgressBar. unfold supports. cbn [fst].
  unfold IsTerminal. unfold_lib. cbn.
  destruct (is_terminal w Stderr_Fd); [done | discriminate].
Qed.

Lemma supportsProgressBar_needs_terminal_witness :
  call (IsTerminal ghostty_world Stderr_Fd) init = (Returned true, init).
Proof.
  apply (supportsProgressBar_needs_terminal ghostty_world init).
  reflexivity.
Defined.

(** X11.  The answer of [supportsProgressBar] depends on [TERM_PROGRAM]
    only up to the case of its letters, with an unset variable counting as
    the empty value, and on [WT_SESSION] only through its presence, not its
    value. *)
Theorem supportsProgressBar_case_and_presence w1 w2 s1 s2 :
  is_terminal w1 Stderr_Fd = is_terminal w2 Stderr_Fd ->
  strings.ToLower (default "" (environment w1 !! "TERM_PROGRAM"))
    = strings.ToLower (default "" (environment w2 !! "TERM_PROGRAM")) ->
  (is_Some (environment w1 !! "WT_SESSION")
   <-> is_Some (environment w2 !! "WT_SESSION")) ->
  (call (supportsProgressBar w1) s1).1 = (call (supportsProgressBar w2) s2).1.
Proof.
  intros Ht Hp Hs. rewrite !call_supportsProgressBar. cbn [fst].
  unfold supports. rewrite Ht, Hp. do 3 f_equal.
  by apply bool_decide_ext.
Qed.

Lemma supportsProgressBar_case_and_presence_witness :
  (call (supportsProgressBar
           (with_env {[ "TERM_PROGRAM" := "GHOSTTY"; "WT_SESSION" := "" ]}
              ghostty_world)) init).1
  = (call (supportsProgressBar
             (with_env {[ "TERM_PROGRAM" := "ghostty";
                          "WT_SESSION" := "8f2c-1" ]}
                ghostty_world)) init).1.
Proof.
  apply supportsProgressBar_case_and_presence; [reflexivity | reflexivity |].
  split; intros _; eexists; reflexivity.
Defined.
